(** * URL Shorty front end: the request/state contract of [src/App.js]

    The file embeds the two stateful components of [App.js]:

    - [UrlShortenerForm] (lines 41-126): the form state, [handleSubmit],
      [copyToClipboard] and the part of the render that decides which
      controls exist;
    - [AdminPage] (lines 130-196): the listing state, the [fetchUrls]
      effect and the table render.

    Every event handler is a procedure over an explicit world (the
    component's [useState] cells together with the collaborators the handler
    talks to: the HTTP client, the console, the clipboard and the timer
    queue).  A procedure returns the worlds it passes through, one per
    statement, so that a property can be stated at any point of a run and
    not only at its end. *)

From Stdlib Require Import String Ascii List Bool Arith Lia.
Import ListNotations.
Local Open Scope string_scope.
Local Open Scope list_scope.
Set Warnings "-register-all".

(** ** JavaScript values *)

(** The values that reach the components: what [JSON.parse] produces for a
    response body, and [undefined].  A number is carried by the text
    [Number.prototype.toString] gives for it (["42"], ["0.5"], ["1e+21"]):
    the components never compute with a number, they only test it for
    truthiness, display it or copy it. *)
Inductive value : Type :=
| VUndefined
| VNull
| VBool (b : bool)
| VNum (repr : string)
| VStr (s : string)
| VArr (items : list value)
| VObj (props : list (string * value)).

(** [!s] is true for the empty string only. *)
Definition str_truthy (s : string) : bool :=
  match s with
  | EmptyString => false
  | String _ _ => true
  end.

(** ToBoolean. *)
Definition truthy (v : value) : bool :=
  match v with
  | VUndefined | VNull => false
  | VBool b => b
  | VNum r => negb (r =? "0")
  | VStr s => str_truthy s
  | VArr _ | VObj _ => true
  end.

(** [Array.isArray]. *)
Definition isArray (v : value) : bool :=
  match v with
  | VArr _ => true
  | _ => false
  end.

Fixpoint assoc (k : string) (props : list (string * value)) : value :=
  match props with
  | [] => VUndefined
  | (k', v) :: rest => if k =? k' then v else assoc k rest
  end.

(** [v.k] for a data property [k] (not [length]): [None] is the TypeError
    of a property read on [undefined] or [null]; a primitive or an array
    has no such property and the read gives [undefined]. *)
Definition field (k : string) (v : value) : option value :=
  match v with
  | VUndefined | VNull => None
  | VObj props => Some (assoc k props)
  | VBool _ | VNum _ | VStr _ | VArr _ => Some VUndefined
  end.

(** ToString, which is the conversion [writeText] applies to its argument.
    An array is joined with commas, [null] and [undefined] elements giving
    the empty text. *)
Fixpoint ToString (v : value) : string :=
  match v with
  | VUndefined => "undefined"
  | VNull => "null"
  | VBool true => "true"
  | VBool false => "false"
  | VNum r => r
  | VStr s => s
  | VObj _ => "[object Object]"
  | VArr items =>
      let elt (x : value) : string :=
        match x with
        | VUndefined | VNull => ""
        | _ => ToString x
        end in
      (fix join (l : list value) : string :=
         match l with
         | [] => ""
         | [x] => elt x
         | x :: l' => (elt x ++ "," ++ join l')%string
         end) items
  end.

(** ** The HTTP client *)

Record request : Type := mkRequest {
  method : string;
  url : string;
  body : value
}.

(** What the server side does with a request. *)
Inductive http_reply : Type :=
| NetworkError                                  (* no response at all *)
| HttpResponse (status : nat) (payload : value).

(** What an exception handler receives. *)
Inductive exn : Type :=
| AxiosError (status : option nat)   (* [None]: the request got no response *)
| DOMException (name : string).

(** An axios response: [res.data] is the only part the components read. *)
Record response : Type := mkResponse {
  res_status : nat;
  data : value
}.

(** A settled promise of the HTTP client. *)
Inductive settled : Type :=
| Fulfilled (res : response)
| Rejected (err : exn).

Definition is_2xx (status : nat) : bool :=
  ((200 <=? status) && (status <? 300))%nat.

(** axios with its default [validateStatus]: the promise is fulfilled for a
    status in 200..299 and rejected otherwise, and when no response comes. *)
Definition axios_settle (r : http_reply) : settled :=
  match r with
  | NetworkError => Rejected (AxiosError None)
  | HttpResponse status payload =>
      if is_2xx status
      then Fulfilled (mkResponse status payload)
      else Rejected (AxiosError (Some status))
  end.

(** An argument of [console.error]. *)
Inductive arg : Type :=
| ArgText (s : string)
| ArgExn (e : exn).

(** Line 10: [process.env.REACT_APP_API_URL || 'http://localhost:5000']. *)
Definition API_URL (REACT_APP_API_URL : option string) : string :=
  match REACT_APP_API_URL with
  | Some s => if str_truthy s then s else "http://localhost:5000"
  | None => "http://localhost:5000"
  end.

(** ** Procedures *)

(** A procedure over worlds of type [W] lists the worlds it passes through,
    the last one being the world it ends in; a procedure that does nothing
    lists none. *)
Section Procedures.
Context {W : Type}.

Definition proc : Type := W -> list W.

Definition final (p : proc) (w : W) : W := last (p w) w.

Definition skip : proc := fun _ => [].

Definition prim (f : W -> W) : proc := fun w => [f w].

Definition seq (p q : proc) : proc :=
  fun w => let t := p w in t ++ q (last t w).
End Procedures.

Arguments proc W : clear implicits.

Declare Scope proc_scope.
Delimit Scope proc_scope with proc.
Notation "p ;; q" := (seq p q) (at level 61, right associativity) : proc_scope.

(** ** UrlShortenerForm (lines 41-126) *)

Module UrlShortenerForm.

(** The five [useState] cells, lines 42-46. *)
Record state : Type := mkState {
  longUrl : string;
  shortUrl : value;
  loading : bool;
  error : string;
  copySuccess : string
}.

(** The only timer callback of the component, line 73:
    [() => setCopySuccess('')]. *)
Inductive callback : Type :=
| ClearCopySuccess.

(** The component instance and what its handlers talk to. *)
Record world : Type := mkWorld {
  hooks : state;
  requests : list request;          (* HTTP requests issued, oldest first *)
  awaiting : nat;                   (* runs of handleSubmit suspended at the await *)
  console : list (list arg);        (* console.error calls, oldest first *)
  clipboard : string;               (* text on the system clipboard *)
  writing : list value;             (* writeText promises not settled yet *)
  now : nat;                        (* milliseconds since the mount *)
  timers : list (nat * callback)    (* pending timeouts, by due time *)
}.

Definition with_hooks (f : state -> state) (w : world) : world :=
  mkWorld (f (hooks w)) (requests w) (awaiting w) (console w) (clipboard w)
          (writing w) (now w) (timers w).

(** *** State setters and collaborators *)

Definition setLongUrl (x : string) : proc world :=
  prim (with_hooks (fun s =>
    mkState x (shortUrl s) (loading s) (error s) (copySuccess s))).

Definition setShortUrl (x : value) : proc world :=
  prim (with_hooks (fun s =>
    mkState (longUrl s) x (loading s) (error s) (copySuccess s))).

Definition setLoading (x : bool) : proc world :=
  prim (with_hooks (fun s =>
    mkState (longUrl s) (shortUrl s) x (error s) (copySuccess s))).

Definition setError (x : string) : proc world :=
  prim (with_hooks (fun s =>
    mkState (longUrl s) (shortUrl s) (loading s) x (copySuccess s))).

Definition setCopySuccess (x : string) : proc world :=
  prim (with_hooks (fun s =>
    mkState (longUrl s) (shortUrl s) (loading s) (error s) x)).

(** [e.preventDefault()] keeps the browser from navigating; nothing of the
    world changes. *)
Definition preventDefault : proc world := prim (fun w => w).

(** [await axios.post(url, body)]: the request goes out and the run is
    suspended until the promise settles. *)
Definition axios_post (u : string) (b : value) : proc world :=
  prim (fun w =>
    mkWorld (hooks w) (requests w ++ [mkRequest "POST" u b]) (S (awaiting w))
            (console w) (clipboard w) (writing w) (now w) (timers w)).

Definition console_error (args : list arg) : proc world :=
  prim (fun w =>
    mkWorld (hooks w) (requests w) (awaiting w) (console w ++ [args])
            (clipboard w) (writing w) (now w) (timers w)).

(** [navigator.clipboard.writeText(text)]: the write is started; its promise
    settles later. *)
Definition clipboard_writeText (text : value) : proc world :=
  prim (fun w =>
    mkWorld (hooks w) (requests w) (awaiting w) (console w) (clipboard w)
            (writing w ++ [text]) (now w) (timers w)).

Fixpoint enqueue (due : nat) (cb : callback) (q : list (nat * callback))
  : list (nat * callback) :=
  match q with
  | [] => [(due, cb)]
  | (d, c) :: q' =>
      if (d <=? due)%nat then (d, c) :: enqueue due cb q' else (due, cb) :: q
  end.

(** [setTimeout(cb, delay)]. *)
Definition setTimeout (cb : callback) (delay : nat) : proc world :=
  prim (fun w =>
    mkWorld (hooks w) (requests w) (awaiting w) (console w) (clipboard w)
            (writing w) (now w) (enqueue (now w + delay) cb (timers w))).

Local Open Scope proc_scope.

Section Handlers.
Variable REACT_APP_API_URL : option string.

(** *** handleSubmit (lines 48-68) *)

(** Lines 49-60, up to the [await].  [r] is the state of the render that
    created the handler: [longUrl] is read from that closure. *)
Definition handleSubmit (r : state) : proc world :=
  preventDefault ;;
  setError "" ;;
  setShortUrl VNull ;;
  setCopySuccess "" ;;
  if negb (str_truthy (longUrl r)) then
    setError "Please enter a URL to shorten."
  else
    setLoading true ;;
    axios_post (API_URL REACT_APP_API_URL ++ "/api/shorten")%string
               (VObj [("longUrl", VStr (longUrl r))]).

(** Lines 61-67, from the settled promise on: the rest of [try], or
    [catch], and then [finally]. *)
Definition handleSubmit_resume (o : settled) : proc world :=
  match o with
  | Fulfilled res => setShortUrl (data res)
  | Rejected err =>
      setError "Failed to shorten URL. Please check the link and try again." ;;
      console_error [ArgExn err]
  end ;;
  setLoading false.

(** *** copyToClipboard (lines 70-78) *)

(** The write is started; the two callbacks below are what [.then] puts on
    its promise, and one of them runs when the promise settles
    ([writeText_then]). *)
Definition copyToClipboard (text : value) : proc world :=
  clipboard_writeText text.

(** The two callbacks of [.then], lines 71-77. *)
Definition copy_fulfilled : proc world :=
  setCopySuccess "Copied!" ;;
  setTimeout ClearCopySuccess 2000.

Definition copy_rejected (err : exn) : proc world :=
  setCopySuccess "Failed to copy!" ;;
  console_error [ArgText "Could not copy text: "; ArgExn err].

Definition run_callback (cb : callback) : proc world :=
  match cb with
  | ClearCopySuccess => setCopySuccess ""
  end.
End Handlers.

(** *** What the render makes available (lines 80-125) *)

(** Line 94: [disabled={loading}] on the submit button, the form's only
    submit control. *)
Definition submit_disabled (r : state) : bool := loading r.

(** Line 101: the error paragraph. *)
Definition error_line (r : state) : option string :=
  if str_truthy (error r) then Some (error r) else None.

(** Lines 103 and 115-120: the copy button exists when [shortUrl] is truthy
    and shows [copySuccess || 'Copy']. *)
Definition copy_button (r : state) : option string :=
  if truthy (shortUrl r)
  then Some (if str_truthy (copySuccess r) then copySuccess r else "Copy")
  else None.

(** Line 89. *)
Definition onChange (text : string) : proc world := setLongUrl text.

(** Line 116: [() => copyToClipboard(shortUrl.shortUrl)]; a TypeError of the
    property read ends the handler. *)
Definition onClick_copy (r : state) : proc world :=
  match field "shortUrl" (shortUrl r) with
  | Some text => copyToClipboard text
  | None => skip
  end.

(** *** The environment's side of the promises and timers *)

Inductive written : Type :=
| WriteOk
| WriteFails (err : exn).

(** The suspended run that is resumed. *)
Definition promise_settled : proc world :=
  prim (fun w =>
    mkWorld (hooks w) (requests w) (pred (awaiting w)) (console w)
            (clipboard w) (writing w) (now w) (timers w)).

Fixpoint remove_nth {A : Type} (i : nat) (l : list A) : list A :=
  match l, i with
  | [], _ => []
  | _ :: l', 0 => l'
  | x :: l', S i' => x :: remove_nth i' l'
  end.

(** The [i]-th pending write ends: with the text on the clipboard, or
    without a change of the clipboard. *)
Definition write_ends (i : nat) (text : value) (r : written) : proc world :=
  prim (fun w =>
    mkWorld (hooks w) (requests w) (awaiting w) (console w)
            (match r with
             | WriteOk => ToString text
             | WriteFails _ => clipboard w
             end)
            (remove_nth i (writing w)) (now w) (timers w)).

(** [.then(copy_fulfilled, copy_rejected)], lines 71-77. *)
Definition writeText_then (r : written) : proc world :=
  match r with
  | WriteOk => copy_fulfilled
  | WriteFails err => copy_rejected err
  end.

Definition advance (dt : nat) : proc world :=
  prim (fun w =>
    mkWorld (hooks w) (requests w) (awaiting w) (console w) (clipboard w)
            (writing w) (now w + dt) (timers w)).

Definition pop_timer : proc world :=
  prim (fun w =>
    mkWorld (hooks w) (requests w) (awaiting w) (console w) (clipboard w)
            (writing w) (now w) (tl (timers w))).

(** The timeouts of the queue [q] that are due run in order, each one
    leaving the queue as it runs. *)
Fixpoint run_due (q : list (nat * callback)) (w : world) : list world :=
  match q with
  | [] => []
  | (due, cb) :: q' =>
      if (due <=? now w)%nat then
        let t := (pop_timer ;; run_callback cb) w in
        t ++ run_due q' (last t w)
      else []
  end.

Definition fire_due : proc world := fun w => run_due (timers w) w.

(** *** Events *)

Inductive event : Type :=
| Change (text : string)              (* the user edits the input *)
| Submit                              (* the user submits the form *)
| PostSettles (o : settled)           (* the promise of line 60 settles *)
| ClickCopy                           (* the user clicks the copy button *)
| WriteSettles (i : nat) (r : written)  (* a promise of line 71 settles *)
| Elapse (dt : nat).                  (* [dt] milliseconds pass *)

(** The worlds an event takes the component through; [None] when the event
    cannot occur in [w]: a submit with the submit button disabled, a click
    on a copy button that is not rendered, a promise that is not pending. *)
Definition react (REACT_APP_API_URL : option string) (e : event) (w : world)
  : option (list world) :=
  match e with
  | Change text => Some (onChange text w)
  | Submit =>
      if submit_disabled (hooks w) then None
      else Some (handleSubmit REACT_APP_API_URL (hooks w) w)
  | PostSettles o =>
      match awaiting w with
      | 0 => None
      | S _ => Some ((promise_settled ;; handleSubmit_resume o) w)
      end
  | ClickCopy =>
      match copy_button (hooks w) with
      | Some _ => Some (onClick_copy (hooks w) w)
      | None => None
      end
  | WriteSettles i r =>
      match nth_error (writing w) i with
      | Some text => Some ((write_ends i text r ;; writeText_then r) w)
      | None => None
      end
  | Elapse dt => Some ((advance dt ;; fire_due) w)
  end.

Definition step (env : option string) (e : event) (w : world) : option world :=
  match react env e w with
  | Some t => Some (last t w)
  | None => None
  end.

Fixpoint run (env : option string) (evs : list event) (w : world)
  : option world :=
  match evs with
  | [] => Some w
  | e :: evs' =>
      match step env e w with
      | Some w' => run env evs' w'
      | None => None
      end
  end.

(** Lines 42-46: the component as mounted, with whatever text the system
    clipboard holds. *)
Definition initial : state := mkState "" VNull false "" "".

Definition mount (clip : string) : world :=
  mkWorld initial [] 0 [] clip [] 0 [].

Definition reachable (env : option string) (w : world) : Prop :=
  exists clip evs, run env evs (mount clip) = Some w.

(** *** Vocabulary of the statements *)

(** The stored result is absent when [shortUrl] is [null], the stored error
    when [error] is the empty string. *)
Definition at_most_one_populated (s : state) : Prop :=
  shortUrl s = VNull \/ error s = "".

(** Result, error and copy acknowledgment are all absent. *)
Definition cleared (s : state) : Prop :=
  shortUrl s = VNull /\ error s = "" /\ copySuccess s = "".

(** [x] differs from [w] in the copy acknowledgment and the timer queue at
    most. *)
Definition only_ack (x w : world) : Prop :=
  longUrl (hooks x) = longUrl (hooks w) /\
  shortUrl (hooks x) = shortUrl (hooks w) /\
  loading (hooks x) = loading (hooks w) /\
  error (hooks x) = error (hooks w) /\
  requests x = requests w /\
  awaiting x = awaiting w /\
  console x = console w /\
  clipboard x = clipboard w /\
  writing x = writing w /\
  now x = now w.

(** [x] has the result, the error, the in-flight flag and the HTTP side of
    [w]. *)
Definition same_flow (x w : world) : Prop :=
  shortUrl (hooks x) = shortUrl (hooks w) /\
  loading (hooks x) = loading (hooks w) /\
  error (hooks x) = error (hooks w) /\
  requests x = requests w /\
  awaiting x = awaiting w.

(** What holds between two events: no run is suspended, the in-flight flag
    is clear and result and error exclude each other; or one run is
    suspended with the flag set and both absent. *)
Definition flow_inv (w : world) : Prop :=
  match awaiting w with
  | 0 => loading (hooks w) = false /\ at_most_one_populated (hooks w)
  | 1 => loading (hooks w) = true /\ shortUrl (hooks w) = VNull /\
         error (hooks w) = ""
  | _ => False
  end.

(** A timeout for [due] is queued, behind timeouts that are due no later. *)
Definition armed (due : nat) (w : world) : Prop :=
  exists pre post,
    timers w = pre ++ (due, ClearCopySuccess) :: post /\
    Forall (fun p => fst p <= due) pre.

Definition is_edit (e : event) : bool :=
  match e with
  | Change _ => true
  | _ => false
  end.

(** The events that are not part of a shortening flow: edits, copies and
    the passing of time. *)
Definition bystander (e : event) : bool :=
  match e with
  | Change _ | ClickCopy | WriteSettles _ _ | Elapse _ => true
  | Submit | PostSettles _ => false
  end.

(** A world in which a result is shown and the copy button has just been
    clicked: the write of the short URL is pending. *)
Definition copy_clicked : world :=
  mkWorld (mkState "https://example.com"
                   (VObj [("shortUrl", VStr "https://s/abc")]) false "" "")
          [mkRequest "POST" "http://localhost:5000/api/shorten"
                     (VObj [("longUrl", VStr "https://example.com")])]
          0 [] "" [VStr "https://s/abc"] 0 [].

(** Line 96: the label of the submit button. *)
Definition submit_label (r : state) : string :=
  if loading r then "..." else "Shorten".

(** The request of line 60 for the input [s]. *)
Definition shorten_request (env : option string) (s : string) : request :=
  mkRequest "POST" (API_URL env ++ "/api/shorten")%string
            (VObj [("longUrl", VStr s)]).

(** The [console.error] calls of the component: line 64 for a request that
    failed, line 76 for a clipboard write that failed. *)
Definition logged (e : event) : list (list arg) :=
  match e with
  | PostSettles (Rejected err) => [[ArgExn err]]
  | WriteSettles _ (WriteFails err) =>
      [[ArgText "Could not copy text: "; ArgExn err]]
  | _ => []
  end.

End UrlShortenerForm.

(** ** AdminPage (lines 130-196) *)

Module AdminPage.

(** The three [useState] cells, lines 132-134.  [urls] is typed as any
    value: that it always holds an array is a property of the component,
    proved below, not of the model's types. *)
Record state : Type := mkState {
  urls : value;
  loading : bool;
  error : string
}.

Record world : Type := mkWorld {
  hooks : state;
  requests : list request;
  awaiting : nat;               (* runs of fetchUrls suspended at the await *)
  console : list (list arg)
}.

Definition with_hooks (f : state -> state) (w : world) : world :=
  mkWorld (f (hooks w)) (requests w) (awaiting w) (console w).

Definition setUrls (x : value) : proc world :=
  prim (with_hooks (fun s => mkState x (loading s) (error s))).

Definition setLoading (x : bool) : proc world :=
  prim (with_hooks (fun s => mkState (urls s) x (error s))).

Definition setError (x : string) : proc world :=
  prim (with_hooks (fun s => mkState (urls s) (loading s) x)).

(** [await axios.get(url)]. *)
Definition axios_get (u : string) : proc world :=
  prim (fun w =>
    mkWorld (hooks w) (requests w ++ [mkRequest "GET" u VUndefined])
            (S (awaiting w)) (console w)).

Definition console_error (args : list arg) : proc world :=
  prim (fun w =>
    mkWorld (hooks w) (requests w) (awaiting w) (console w ++ [args])).

Definition promise_settled : proc world :=
  prim (fun w =>
    mkWorld (hooks w) (requests w) (pred (awaiting w)) (console w)).

Local Open Scope proc_scope.

Section Effect.
Variable REACT_APP_API_URL : option string.

(** Lines 137-139: [fetchUrls] up to the [await]. *)
Definition fetchUrls : proc world :=
  axios_get (API_URL REACT_APP_API_URL ++ "/api/urls")%string.

(** Lines 140-152: from the settled promise on. *)
Definition fetchUrls_resume (o : settled) : proc world :=
  match o with
  | Fulfilled res =>
      if isArray (data res) then
        setUrls (data res)
      else
        setError "Received an invalid format from the server."
  | Rejected err =>
      setError "Failed to fetch URL list." ;;
      console_error [ArgExn err]
  end ;;
  setLoading false.

(** Lines 136-156: the effect of the first render, run once. *)
Definition effect : proc world := fetchUrls.
End Effect.

(** *** The render (lines 158-195) *)

Inductive row : Type :=
| UrlRow (key originalUrl shortUrl clicks : value)   (* lines 176-184 *)
| EmptyRow.                  (* lines 187-189, "No links have been shortened yet." *)

Inductive element : Type :=
| LoadingP                   (* line 158 *)
| ErrorP (text : string)     (* line 159 *)
| Table (tbody : list row).  (* lines 162-194 *)

(** What a call of the component function gives: an element, a TypeError
    out of a property read, or [NotAnArray] when [urls.length] and
    [urls.map] are asked of a value that is not an array (what JavaScript
    makes of that depends on the value; the model only names the case). *)
Inductive rendering : Type :=
| Rendered (e : element)
| Throws
| NotAnArray.

(** Lines 176-184: the row of one element of [urls]. *)
Definition url_row (u : value) : option row :=
  match field "_id" u, field "originalUrl" u, field "shortUrl" u,
        field "clicks" u with
  | Some k, Some o, Some s, Some c => Some (UrlRow k o s c)
  | _, _, _, _ => None
  end.

(** [urls.map(...)], the callback failing on an element. *)
Fixpoint map_rows (items : list value) : option (list row) :=
  match items with
  | [] => Some []
  | u :: rest =>
      match url_row u, map_rows rest with
      | Some r, Some rs => Some (r :: rs)
      | _, _ => None
      end
  end.

(** Lines 174-190. *)
Definition tbody_of (items : list value) : option (list row) :=
  if (0 <? length items)%nat then map_rows items else Some [EmptyRow].

Definition render (s : state) : rendering :=
  if loading s then Rendered LoadingP
  else if str_truthy (error s) then Rendered (ErrorP (error s))
  else
    match urls s with
    | VArr items =>
        match tbody_of items with
        | Some rows => Rendered (Table rows)
        | None => Throws
        end
    | _ => NotAnArray
    end.

(** *** Events *)

Inductive event : Type :=
| GetSettles (o : settled).     (* the promise of line 139 settles *)

Definition react (e : event) (w : world) : option (list world) :=
  match e with
  | GetSettles o =>
      match awaiting w with
      | 0 => None
      | S _ => Some ((promise_settled ;; fetchUrls_resume o) w)
      end
  end.

Definition step (e : event) (w : world) : option world :=
  match react e w with
  | Some t => Some (last t w)
  | None => None
  end.

Fixpoint run (evs : list event) (w : world) : option world :=
  match evs with
  | [] => Some w
  | e :: evs' =>
      match step e w with
      | Some w' => run evs' w'
      | None => None
      end
  end.

(** Lines 132-134. *)
Definition initial : state := mkState (VArr []) true "".

(** The component after its first render and the effect of that render. *)
Definition mount (env : option string) : world :=
  final (effect env) (mkWorld initial [] 0 []).

Definition reachable (env : option string) (w : world) : Prop :=
  exists evs, run evs (mount env) = Some w.

(** A listing of two records. *)
Definition two_records : list value :=
  [VObj [("_id", VStr "b2"); ("originalUrl", VStr "https://example.com/b");
         ("shortUrl", VStr "https://s/b"); ("clicks", VNum "7")];
   VObj [("_id", VStr "a1"); ("originalUrl", VStr "https://example.com/a");
         ("shortUrl", VStr "https://s/a"); ("clicks", VNum "0")]].

(** The request of line 139. *)
Definition listing_request (env : option string) : request :=
  mkRequest "GET" (API_URL env ++ "/api/urls")%string VUndefined.

(** [null] or [undefined]: the values a property read throws on. *)
Definition nullish (v : value) : bool :=
  match v with
  | VUndefined | VNull => true
  | _ => false
  end.

(** The two kinds of world the page is in: waiting for its one request,
    untouched since the first render; or done, with the loading flag
    cleared and either no list or no error. *)
Definition page_inv (env : option string) (w : world) : Prop :=
  requests w = [listing_request env] /\
  ((awaiting w = 1 /\ hooks w = initial) \/
   (awaiting w = 0 /\ loading (hooks w) = false /\
    (urls (hooks w) = VArr [] \/ error (hooks w) = ""))).

End AdminPage.

(** * Properties *)

(** ** Procedures *)

Section ProcedureFacts.
Context {W : Type}.
Implicit Types (p q : proc W) (w : W).

Lemma last_nonempty (x : W) (l : list W) (d d' : W) :
  last (x :: l) d = last (x :: l) d'.
Proof.
  revert x; induction l as [|y l IH]; intro x; [reflexivity|].
  change (last (y :: l) d = last (y :: l) d'). apply IH.
Qed.

Lemma last_app_default (a b : list W) (d : W) :
  last (a ++ b) d = last b (last a d).
Proof.
  induction a as [|x a IH]; [reflexivity|].
  destruct a as [|y a].
  - destruct b as [|z b]; [reflexivity|].
    change (last (z :: b) d = last (z :: b) x). apply last_nonempty.
  - change (last ((y :: a) ++ b) d = last b (last (y :: a) d)).
    exact IH.
Qed.

Lemma final_seq p q w : final (p ;; q)%proc w = final q (final p w).
Proof. unfold final, seq. apply last_app_default. Qed.

Lemma Forall_last (P : W -> Prop) (t : list W) (d : W) :
  Forall P t -> P d -> P (last t d).
Proof.
  intros Ht Hd. induction Ht as [|x t Hx Ht IH]; [exact Hd|].
  destruct t; [exact Hx|exact IH].
Qed.
End ProcedureFacts.

(** ** UrlShortenerForm *)

Section FormFacts.
Import UrlShortenerForm.
Variable env : option string.
Implicit Types (w x : world) (e : event).

Ltac open_world w :=
  destruct w as [[? ? ? ? ?] ? ? ? ? ? ? ?].

Lemma only_ack_refl w : only_ack w w.
Proof. unfold only_ack; repeat split. Qed.

Lemma only_ack_trans x y w : only_ack x y -> only_ack y w -> only_ack x w.
Proof.
  unfold only_ack; intros H1 H2.
  repeat match goal with H : _ /\ _ |- _ => destruct H end.
  repeat split; congruence.
Qed.

Lemma only_ack_same_flow x w : only_ack x w -> same_flow x w.
Proof. unfold only_ack, same_flow; tauto. Qed.

Lemma same_flow_refl w : same_flow w w.
Proof. unfold same_flow; repeat split. Qed.

Lemma same_flow_trans x y w : same_flow x y -> same_flow y w -> same_flow x w.
Proof.
  unfold same_flow; intros H1 H2.
  repeat match goal with H : _ /\ _ |- _ => destruct H end.
  repeat split; congruence.
Qed.

(** Timeouts only touch the copy acknowledgment and their own queue. *)
Lemma run_due_only_ack q w :
  Forall (fun x => only_ack x w) (run_due q w).
Proof.
  revert w; induction q as [|[due cb] q IH]; intro w; simpl; [constructor|].
  destruct (due <=? now w)%nat; [|constructor].
  destruct cb.
  assert (Hpop : only_ack (final pop_timer w) w)
    by (open_world w; cbn; unfold only_ack; cbn; repeat split).
  assert (Hset : only_ack (final (pop_timer ;; setCopySuccess "")%proc w) w)
    by (open_world w; cbn; unfold only_ack; cbn; repeat split).
  cbn in *.
  constructor; [exact Hpop|]. constructor; [exact Hset|].
  eapply Forall_impl; [|apply IH].
  intros x Hx. eapply only_ack_trans; [exact Hx|exact Hset].
Qed.

(** An event outside the shortening flow leaves the flow where it is, at
    every world it passes through. *)
Lemma bystander_same_flow e w t :
  bystander e = true -> react env e w = Some t ->
  Forall (fun x => same_flow x w) t.
Proof.
  intros Hb Hr. destruct e as [text| |o| |i r|dt]; try discriminate Hb;
    cbn in Hr.
  - injection Hr as <-. open_world w; cbn.
    constructor; [unfold same_flow; cbn; repeat split|constructor].
  - destruct (copy_button (hooks w)); [|discriminate].
    injection Hr as <-. unfold onClick_copy.
    destruct (field "shortUrl" (shortUrl (hooks w))); [|constructor].
    open_world w; cbn.
    constructor; [unfold same_flow; cbn; repeat split|constructor].
  - destruct (nth_error (writing w) i) as [text|]; [|discriminate].
    injection Hr as <-. destruct r; open_world w; cbn;
      repeat (constructor; [unfold same_flow; cbn; repeat split|]);
      constructor.
  - injection Hr as <-.
    change ((advance dt ;; fire_due)%proc w)
      with (final (advance dt) w :: run_due (timers (final (advance dt) w)) (final (advance dt) w)).
    assert (Ha : same_flow (final (advance dt) w) w)
      by (open_world w; cbn; unfold same_flow; cbn; repeat split).
    constructor; [exact Ha|].
    eapply Forall_impl; [|apply run_due_only_ack].
    intros x Hx. eapply same_flow_trans; [|exact Ha].
    apply only_ack_same_flow, Hx.
Qed.
Lemma step_react e w w' :
  step env e w = Some w' <-> exists t, react env e w = Some t /\ w' = last t w.
Proof.
  unfold step. destruct (react env e w) as [t|]; split.
  - intro H; injection H as <-. now exists t.
  - intros (t' & Ht & ->). now injection Ht as <-.
  - discriminate.
  - intros (t' & Ht & _). discriminate.
Qed.

Lemma run_bystanders mid w w' :
  forallb bystander mid = true -> run env mid w = Some w' -> same_flow w' w.
Proof.
  revert w; induction mid as [|e mid IH]; intros w Hb Hr; simpl in *.
  - injection Hr as <-. apply same_flow_refl.
  - apply andb_prop in Hb as [He Hmid].
    destruct (step env e w) as [w1|] eqn:Hs; [|discriminate].
    apply step_react in Hs as (t & Ht & ->).
    eapply same_flow_trans; [exact (IH _ Hmid Hr)|].
    apply Forall_last; [|apply same_flow_refl].
    exact (bystander_same_flow _ _ _ He Ht).
Qed.

(** Claim C2.  A submission with the empty input (the submit control being
    enabled) issues no network call: at every world of the run the request
    log and the number of suspended runs are those of the start and the
    in-flight flag is unset.  The run ends with the validation message
    ["Please enter a URL to shorten."] as the error (the spec quotes it
    without its full stop) and no result. *)
Theorem submit_empty_is_local w :
  submit_disabled (hooks w) = false ->
  longUrl (hooks w) = "" ->
  exists t,
    react env Submit w = Some t /\
    Forall (fun x => requests x = requests w /\ awaiting x = awaiting w /\
                     loading (hooks x) = false) t /\
    error (hooks (last t w)) = ("Please enter a URL to shorten" ++ ".")%string /\
    shortUrl (hooks (last t w)) = VNull.
Proof.
  intros Hen Hempty. unfold react. rewrite Hen.
  eexists; split; [reflexivity|].
  unfold handleSubmit. rewrite Hempty.
  open_world w; cbn in *. subst.
  repeat split; repeat (constructor; [cbn; repeat split|]); constructor.
Qed.

Lemma submit_issues_request w :
  submit_disabled (hooks w) = false ->
  longUrl (hooks w) <> "" ->
  exists w1,
    step env Submit w = Some w1 /\
    requests w1 =
      requests w ++
      [mkRequest "POST" (API_URL env ++ "/api/shorten")%string
                 (VObj [("longUrl", VStr (longUrl (hooks w)))])] /\
    awaiting w1 = S (awaiting w) /\
    longUrl (hooks w1) = longUrl (hooks w) /\
    shortUrl (hooks w1) = VNull /\
    error (hooks w1) = "" /\
    loading (hooks w1) = true.
Proof.
  intros Hen Hne. unfold step, react. rewrite Hen.
  eexists; split; [reflexivity|].
  unfold handleSubmit.
  destruct (longUrl (hooks w)) as [|c s] eqn:Hl; [congruence|].
  open_world w; cbn in *. subst. repeat split.
Qed.
Lemma post_settles w o :
  awaiting w <> 0 ->
  exists w2,
    step env (PostSettles o) w = Some w2 /\
    awaiting w2 = pred (awaiting w) /\
    loading (hooks w2) = false /\
    match o with
    | Fulfilled res =>
        shortUrl (hooks w2) = data res /\ error (hooks w2) = error (hooks w)
    | Rejected err =>
        shortUrl (hooks w2) = shortUrl (hooks w) /\
        error (hooks w2) =
          "Failed to shorten URL. Please check the link and try again." /\
        console w2 = console w ++ [[ArgExn err]]
    end.
Proof.
  intro Hp. unfold step, react.
  destruct (awaiting w) as [|n] eqn:Ha; [congruence|].
  eexists; split; [reflexivity|].
  destruct o; open_world w; cbn in *; subst; repeat split.
Qed.

(** Claim C3.  A submission with a non-empty input issues the request and
    suspends.  Whatever edits, copies and timeouts happen meanwhile, when
    the endpoint answers with a 2xx status and body [payload] the flow ends
    with [shortUrl] holding exactly [payload], no error, and the in-flight
    flag cleared. *)
Theorem shorten_success w status payload :
  submit_disabled (hooks w) = false ->
  longUrl (hooks w) <> "" ->
  is_2xx status = true ->
  exists w1,
    step env Submit w = Some w1 /\
    forall mid w1',
      forallb bystander mid = true -> run env mid w1 = Some w1' ->
      exists w2,
        step env (PostSettles (axios_settle (HttpResponse status payload)))
             w1' = Some w2 /\
        shortUrl (hooks w2) = payload /\
        error (hooks w2) = "" /\
        loading (hooks w2) = false.
Proof.
  intros Hen Hne Hok.
  destruct (submit_issues_request w Hen Hne)
    as (w1 & Hs & _ & Haw & _ & _ & Herr & _).
  exists w1; split; [exact Hs|]. intros mid w1' Hb Hr.
  destruct (run_bystanders _ _ _ Hb Hr) as (_ & _ & Herr' & _ & Haw').
  unfold axios_settle; rewrite Hok.
  destruct (post_settles w1' (Fulfilled (mkResponse status payload)))
    as (w2 & H2 & _ & Hld & Hsu & He); [rewrite Haw', Haw; discriminate|].
  exists w2. repeat split; try assumption. congruence.
Qed.

(** Claim C4.  A submission with a non-empty input whose request fails, by
    a network error or by a status outside 200..299, ends with the one
    fixed message ["Failed to shorten URL. Please check the link and try
    again."], no result, and the in-flight flag cleared, whatever the
    failure was and whatever edits, copies and timeouts happened
    meanwhile. *)
Theorem shorten_failure w reply :
  submit_disabled (hooks w) = false ->
  longUrl (hooks w) <> "" ->
  (reply = NetworkError \/
   exists status payload,
     reply = HttpResponse status payload /\ is_2xx status = false) ->
  exists w1,
    step env Submit w = Some w1 /\
    forall mid w1',
      forallb bystander mid = true -> run env mid w1 = Some w1' ->
      exists w2,
        step env (PostSettles (axios_settle reply)) w1' = Some w2 /\
        error (hooks w2) =
          "Failed to shorten URL. Please check the link and try again." /\
        shortUrl (hooks w2) = VNull /\
        loading (hooks w2) = false.
Proof.
  intros Hen Hne Hfail.
  destruct (submit_issues_request w Hen Hne)
    as (w1 & Hs & _ & Haw & _ & Hsu & _ & _).
  exists w1; split; [exact Hs|]. intros mid w1' Hb Hr.
  destruct (run_bystanders _ _ _ Hb Hr) as (Hsu' & _ & _ & _ & Haw').
  assert (Hrej : exists err, axios_settle reply = Rejected err).
  { destruct Hfail as [->|(status & payload & -> & Hbad)]; cbn.
    - eauto.
    - rewrite Hbad; eauto. }
  destruct Hrej as (err & ->).
  destruct (post_settles w1' (Rejected err))
    as (w2 & H2 & _ & Hld & Hsu2 & He & _); [rewrite Haw', Haw; discriminate|].
  exists w2. repeat split; try assumption. congruence.
Qed.

(** Claim C9.  No part of a submission writes the input text: [longUrl] is
    the same at every world [handleSubmit] passes through, before the await
    and after it, whatever the outcome; and of all events only the edit of
    the input changes it. *)
Theorem submission_keeps_input w (r : state) (o : settled) :
  Forall (fun x => longUrl (hooks x) = longUrl (hooks w))
         (handleSubmit env r w) /\
  Forall (fun x => longUrl (hooks x) = longUrl (hooks w))
         ((promise_settled ;; handleSubmit_resume o)%proc w) /\
  forall e t,
    is_edit e = false -> react env e w = Some t ->
    Forall (fun x => longUrl (hooks x) = longUrl (hooks w)) t.
Proof.
  assert (Hsub : forall r', Forall (fun x => longUrl (hooks x) = longUrl (hooks w))
                      (handleSubmit env r' w)).
  { intro r'. unfold handleSubmit. destruct (str_truthy (longUrl r'));
      open_world w; cbn; repeat (constructor; [reflexivity|]); constructor. }
  assert (Hres : forall o', Forall (fun x => longUrl (hooks x) = longUrl (hooks w))
                      ((promise_settled ;; handleSubmit_resume o')%proc w)).
  { intro o'. destruct o'; open_world w; cbn;
      repeat (constructor; [reflexivity|]); constructor. }
  split; [apply Hsub|]. split; [apply Hres|].
  intros e t He Hr. destruct e as [text| |o'| |i wr|dt]; try discriminate He;
    unfold react in Hr.
  - destruct (submit_disabled (hooks w)); [discriminate|].
    injection Hr as <-. apply Hsub.
  - destruct (awaiting w); [discriminate|]. injection Hr as <-. apply Hres.
  - destruct (copy_button (hooks w)); [|discriminate].
    injection Hr as <-. unfold onClick_copy.
    destruct (field "shortUrl" (shortUrl (hooks w))); [|constructor].
    open_world w; cbn. repeat (constructor; [reflexivity|]); constructor.
  - destruct (nth_error (writing w) i) as [text|]; [|discriminate].
    injection Hr as <-. destruct wr; open_world w; cbn;
      repeat (constructor; [reflexivity|]); constructor.
  - injection Hr as <-.
    change ((advance dt ;; fire_due)%proc w)
      with (final (advance dt) w ::
            run_due (timers (final (advance dt) w)) (final (advance dt) w)).
    constructor; [open_world w; reflexivity|].
    eapply Forall_impl; [|apply run_due_only_ack].
    intros x (Hx & _). rewrite Hx. open_world w; reflexivity.
Qed.
Lemma flow_inv_at_most_one w :
  flow_inv w -> at_most_one_populated (hooks w).
Proof.
  unfold flow_inv, at_most_one_populated.
  destruct (awaiting w) as [|[|n]]; tauto.
Qed.

Lemma flow_inv_same_flow x w : same_flow x w -> flow_inv w -> flow_inv x.
Proof.
  unfold same_flow, flow_inv, at_most_one_populated.
  intros (-> & -> & -> & _ & ->). tauto.
Qed.

Lemma flow_inv_react e w t :
  flow_inv w -> react env e w = Some t ->
  Forall (fun x => at_most_one_populated (hooks x)) t /\ flow_inv (last t w).
Proof.
  intros Hinv Hr.
  destruct (bystander e) eqn:Hb.
  - pose proof (bystander_same_flow _ _ _ Hb Hr) as Hsame. split.
    + eapply Forall_impl; [|exact Hsame]. intros x Hx.
      apply flow_inv_at_most_one. exact (flow_inv_same_flow _ _ Hx Hinv).
    + apply flow_inv_same_flow with (w := w); [|exact Hinv].
      apply Forall_last; [exact Hsame|apply same_flow_refl].
  - destruct e as [text| |o| |i r|dt]; try discriminate Hb;
      unfold react in Hr.
    + destruct (submit_disabled (hooks w)) eqn:Hen; [discriminate|].
      injection Hr as <-. unfold handleSubmit.
      unfold flow_inv in Hinv. unfold submit_disabled in Hen.
      destruct (awaiting w) as [|[|n]] eqn:Ha;
        [|destruct Hinv; congruence|contradiction].
      destruct (str_truthy (longUrl (hooks w)));
        open_world w; cbn in *; subst;
        unfold flow_inv, at_most_one_populated; cbn;
        (split; [repeat (constructor; [cbn; tauto|]); constructor|]);
        repeat split; tauto.
    + unfold flow_inv in Hinv.
      destruct (awaiting w) as [|[|n]] eqn:Ha;
        [discriminate| |contradiction].
      injection Hr as <-. destruct Hinv as (Hld & Hsu & Herr).
      destruct o; open_world w; cbn in *; subst;
        unfold flow_inv, at_most_one_populated; cbn;
        (split; [repeat (constructor; [cbn; tauto|]); constructor|]);
        repeat split; tauto.
Qed.

Lemma flow_inv_mount clip : flow_inv (mount clip).
Proof. unfold flow_inv, at_most_one_populated; cbn. tauto. Qed.

Lemma flow_inv_run evs w w' :
  flow_inv w -> run env evs w = Some w' -> flow_inv w'.
Proof.
  revert w; induction evs as [|e evs IH]; intros w Hinv Hr; simpl in Hr.
  - now injection Hr as <-.
  - destruct (step env e w) as [w1|] eqn:Hs; [|discriminate].
    apply step_react in Hs as (t & Ht & ->).
    exact (IH _ (proj2 (flow_inv_react _ _ _ Hinv Ht)) Hr).
Qed.

(** Claim C1.  In every reachable world, and at every world an event takes
    the component through from there, result and error are not both
    populated.  Every submission first reaches a world [c] where result,
    error and copy acknowledgment are all absent, with no request issued
    and the in-flight flag unset up to there; the empty-input check and the
    request come after [c]. *)
Theorem result_error_exclusive w :
  reachable env w ->
  at_most_one_populated (hooks w) /\
  (forall e t,
      react env e w = Some t ->
      Forall (fun x => at_most_one_populated (hooks x)) t) /\
  (forall t,
      react env Submit w = Some t ->
      exists pre c post,
        t = pre ++ c :: post /\
        cleared (hooks c) /\
        Forall (fun x => requests x = requests w /\ loading (hooks x) = false)
               (pre ++ [c]) /\
        post =
          (if negb (str_truthy (longUrl (hooks w))) then
             setError "Please enter a URL to shorten."
           else
             setLoading true ;;
             axios_post (API_URL env ++ "/api/shorten")%string
                        (VObj [("longUrl", VStr (longUrl (hooks w)))]))%proc c).
Proof.
  intros (clip & evs & Hrun).
  pose proof (flow_inv_run _ _ _ (flow_inv_mount clip) Hrun) as Hinv.
  split; [exact (flow_inv_at_most_one _ Hinv)|]. split.
  - intros e t Hr. exact (proj1 (flow_inv_react _ _ _ Hinv Hr)).
  - intros t Hr. unfold react in Hr.
    destruct (submit_disabled (hooks w)) eqn:Hen; [discriminate|].
    injection Hr as <-. unfold submit_disabled in Hen.
    exists [final preventDefault w;
            final (preventDefault ;; setError "")%proc w;
            final (preventDefault ;; setError "" ;; setShortUrl VNull)%proc w],
           (final (preventDefault ;; setError "" ;; setShortUrl VNull ;;
                   setCopySuccess "")%proc w).
    eexists. split; [|split; [|split; [|reflexivity]]].
    + unfold handleSubmit.
      destruct (str_truthy (longUrl (hooks w))); open_world w; reflexivity.
    + open_world w; cbn. unfold cleared; cbn. tauto.
    + open_world w; cbn in *. subst.
      repeat (constructor; [cbn; tauto|]); constructor.
Qed.
(** *** Timers *)

Lemma enqueue_split due cb q :
  exists pre post,
    enqueue due cb q = pre ++ (due, cb) :: post /\
    Forall (fun p => fst p <= due) pre.
Proof.
  induction q as [|[d c] q (pre & post & Heq & Hpre)]; simpl.
  - exists [], []. split; [reflexivity|constructor].
  - destruct (d <=? due)%nat eqn:Hd.
    + exists ((d, c) :: pre), post. rewrite Heq. split; [reflexivity|].
      constructor; [apply Nat.leb_le, Hd|exact Hpre].
    + exists [], ((d, c) :: q). split; [reflexivity|constructor].
Qed.

Lemma run_due_cons due cb q w :
  run_due ((due, cb) :: q) w =
  if (due <=? now w)%nat then
    (pop_timer ;; run_callback cb)%proc w ++
    run_due q (final (pop_timer ;; run_callback cb)%proc w)
  else [].
Proof. reflexivity. Qed.

(** Once the acknowledgment is absent, timeouts leave it absent. *)
Lemma run_due_keeps_absent q w :
  copySuccess (hooks w) = "" ->
  copySuccess (hooks (last (run_due q w) w)) = "".
Proof.
  revert w; induction q as [|[due cb] q IH]; intros w Hw;
    [exact Hw|].
  rewrite run_due_cons.
  destruct (due <=? now w)%nat; [|exact Hw]. destruct cb.
  rewrite last_app_default. apply IH. open_world w; reflexivity.
Qed.

(** A timeout that is due, behind timeouts that are due, runs. *)
Lemma run_due_reaches pre due post w :
  Forall (fun p => fst p <= now w) pre -> due <= now w ->
  copySuccess
    (hooks (last (run_due (pre ++ (due, ClearCopySuccess) :: post) w) w)) = "".
Proof.
  revert w; induction pre as [|[d c] pre IH]; intros w Hpre Hdue;
    [rewrite app_nil_l|rewrite <- app_comm_cons]; rewrite run_due_cons.
  - apply Nat.leb_le in Hdue; rewrite Hdue.
    rewrite last_app_default. apply run_due_keeps_absent.
    open_world w; reflexivity.
  - inversion Hpre as [|? ? Hd Hpre']; subst. simpl in Hd.
    apply Nat.leb_le in Hd; rewrite Hd.
    rewrite last_app_default. destruct c. apply IH.
    + open_world w; exact Hpre'.
    + open_world w; exact Hdue.
Qed.

Lemma elapse_reverts w dt pre due post :
  timers w = pre ++ (due, ClearCopySuccess) :: post ->
  Forall (fun p => fst p <= due) pre ->
  due <= now w + dt ->
  exists w',
    step env (Elapse dt) w = Some w' /\
    copySuccess (hooks w') = "" /\
    shortUrl (hooks w') = shortUrl (hooks w) /\
    clipboard w' = clipboard w.
Proof.
  intros Ht Hpre Hdue. unfold step, react.
  eexists; split; [reflexivity|].
  change ((advance dt ;; fire_due)%proc w)
    with (final (advance dt) w ::
          run_due (timers (final (advance dt) w)) (final (advance dt) w)).
  set (wa := final (advance dt) w).
  assert (Hnow : now wa = now w + dt) by (open_world w; reflexivity).
  assert (Htm : timers wa = timers w) by (open_world w; reflexivity).
  assert (Hlast : last (wa :: run_due (timers wa) wa) w
                  = last (run_due (timers wa) wa) wa).
  { change (wa :: run_due (timers wa) wa)
      with ([wa] ++ run_due (timers wa) wa).
    apply last_app_default. }
  rewrite Hlast, Htm, Ht. split.
  - apply run_due_reaches; [|lia].
    eapply Forall_impl; [|exact Hpre]. intros p Hp; simpl in Hp. lia.
  - assert (Hack : only_ack
              (last (run_due (pre ++ (due, ClearCopySuccess) :: post) wa) wa) wa)
      by (apply Forall_last; [apply run_due_only_ack|apply only_ack_refl]).
    destruct Hack as (_ & Hsu & _ & _ & _ & _ & _ & Hcl & _).
    rewrite Hsu, Hcl. open_world w; split; reflexivity.
Qed.

(** Claim C8.  With a ShortenResult stored (an object whose [shortUrl] is
    the string [u]), a click on the copy button followed by the successful
    end of that write leaves exactly [u] on the clipboard and ["Copied!"]
    as the acknowledgment, shown on the button; once 2000 ms or more have
    passed with nothing else happening the acknowledgment is absent, the
    button reads ["Copy"] again and the clipboard still holds [u]. *)
Theorem copy_round_trip w props u :
  shortUrl (hooks w) = VObj props ->
  assoc "shortUrl" props = VStr u ->
  exists w1 w2,
    step env ClickCopy w = Some w1 /\
    step env (WriteSettles (length (writing w)) WriteOk) w1 = Some w2 /\
    clipboard w2 = u /\
    copySuccess (hooks w2) = "Copied!" /\
    copy_button (hooks w2) = Some "Copied!" /\
    forall dt,
      2000 <= dt ->
      exists w3,
        step env (Elapse dt) w2 = Some w3 /\
        copySuccess (hooks w3) = "" /\
        copy_button (hooks w3) = Some "Copy" /\
        clipboard w3 = u.
Proof.
  intros Hres Hu.
  set (w1 := final (copyToClipboard (VStr u)) w).
  set (w2 := final (write_ends (length (writing w)) (VStr u) WriteOk ;;
                    writeText_then WriteOk)%proc w1).
  exists w1, w2.
  assert (Hc : step env ClickCopy w = Some w1).
  { unfold step, react, copy_button, onClick_copy.
    rewrite Hres; cbn. rewrite Hu. reflexivity. }
  assert (Hnth : nth_error (writing w1) (length (writing w)) = Some (VStr u)).
  { subst w1. open_world w; cbn.
    rewrite nth_error_app2, Nat.sub_diag; [reflexivity|lia]. }
  assert (Hs : step env (WriteSettles (length (writing w)) WriteOk) w1
               = Some w2).
  { unfold step, react. rewrite Hnth. reflexivity. }
  split; [exact Hc|]. split; [exact Hs|]. clear Hc Hs Hnth.
  assert (H2 : clipboard w2 = u /\ copySuccess (hooks w2) = "Copied!" /\
               shortUrl (hooks w2) = VObj props /\
               timers w2 = enqueue (now w + 2000) ClearCopySuccess (timers w) /\
               now w2 = now w).
  { subst w2 w1. open_world w; cbn in *. subst. repeat split. }
  destruct H2 as (Hclip & Hack & Hsu & Htm & Hnow).
  split; [exact Hclip|]. split; [exact Hack|]. split.
  { unfold copy_button. rewrite Hsu, Hack. reflexivity. }
  intros dt Hdt.
  destruct (enqueue_split (now w + 2000) ClearCopySuccess (timers w))
    as (pre & post & Hq & Hpre).
  destruct (elapse_reverts w2 dt pre (now w + 2000) post)
    as (w3 & Hs & Hack3 & Hsu3 & Hcl3); [congruence|exact Hpre|lia|].
  exists w3. split; [exact Hs|]. split; [exact Hack3|]. split.
  - unfold copy_button. rewrite Hsu3, Hsu, Hack3. reflexivity.
  - congruence.
Qed.

(** Claim C7, on the branch where the clipboard write is rejected.  The
    acknowledgment becomes ["Failed to copy!"] and no timeout is queued:
    with no other timeout pending, the acknowledgment is still
    ["Failed to copy!"] after any amount of time.  Only the fulfilled
    branch (line 73) queues the revert. *)
Theorem failed_copy_stays w i text err :
  timers w = [] ->
  nth_error (writing w) i = Some text ->
  exists w1,
    step env (WriteSettles i (WriteFails err)) w = Some w1 /\
    copySuccess (hooks w1) = "Failed to copy!" /\
    timers w1 = [] /\
    forall dt,
      exists w2,
        step env (Elapse dt) w1 = Some w2 /\
        copySuccess (hooks w2) = "Failed to copy!".
Proof.
  intros Htm Hnth. unfold step at 1, react. rewrite Hnth.
  eexists. split; [reflexivity|].
  set (w1 := last _ _).
  assert (H1 : copySuccess (hooks w1) = "Failed to copy!" /\ timers w1 = [])
    by (subst w1; open_world w; cbn in *; subst; split; reflexivity).
  destruct H1 as (Hack & Htm1).
  split; [exact Hack|]. split; [exact Htm1|].
  intro dt. unfold step, react. eexists. split; [reflexivity|].
  change ((advance dt ;; fire_due)%proc w1)
    with (final (advance dt) w1 ::
          run_due (timers (final (advance dt) w1)) (final (advance dt) w1)).
  replace (timers (final (advance dt) w1)) with (timers w1)
    by (destruct w1; reflexivity).
  rewrite Htm1. cbn. exact Hack.
Qed.
Lemma enqueue_keeps_armed d' cb due pre post :
  Forall (fun p => fst p <= due) pre ->
  exists pre' post',
    enqueue d' cb (pre ++ (due, ClearCopySuccess) :: post)
      = pre' ++ (due, ClearCopySuccess) :: post' /\
    Forall (fun p => fst p <= due) pre'.
Proof.
  induction pre as [|[d c0] pre IH]; intro Hpre; simpl.
  - destruct (due <=? d')%nat eqn:Hd.
    + exists [], (enqueue d' cb post). split; [reflexivity|constructor].
    + exists [(d', cb)], post. split; [reflexivity|].
      apply Nat.leb_gt in Hd. constructor; [simpl; lia|constructor].
  - inversion Hpre as [|? ? Hd0 Hpre0]; subst. simpl in Hd0.
    destruct (d <=? d')%nat eqn:Hd.
    + destruct (IH Hpre0) as (pre' & post' & -> & Hall).
      exists ((d, c0) :: pre'), post'. split; [reflexivity|].
      constructor; [exact Hd0|exact Hall].
    + exists ((d', cb) :: (d, c0) :: pre), post. split; [reflexivity|].
      apply Nat.leb_gt in Hd. constructor; [simpl; lia|exact Hpre].
Qed.

(** Timeouts that run before [due] leave a timeout for [due] queued. *)
Lemma run_due_keeps_armed due pre post w :
  timers w = pre ++ (due, ClearCopySuccess) :: post ->
  Forall (fun p => fst p <= due) pre ->
  now w < due ->
  armed due (last (run_due (timers w) w) w).
Proof.
  revert w; induction pre as [|[d c0] pre IH]; intros w Ht Hpre Hnow;
    rewrite Ht;
    [rewrite app_nil_l|rewrite <- app_comm_cons]; rewrite run_due_cons.
  - apply Nat.leb_gt in Hnow; rewrite Hnow. simpl.
    exists [], post. split; [exact Ht|constructor].
  - inversion Hpre as [|? ? Hd0 Hpre0]; subst.
    destruct (d <=? now w)%nat.
    + rewrite last_app_default.
      set (w1 := final (pop_timer ;; run_callback c0)%proc w).
      assert (H1 : timers w1 = pre ++ (due, ClearCopySuccess) :: post /\
                   now w1 = now w).
      { subst w1. destruct c0. open_world w; cbn in *. subst.
        split; reflexivity. }
      destruct H1 as (Ht1 & Hn1).
      change (last ((pop_timer ;; run_callback c0)%proc w) w) with w1.
      rewrite <- Ht1. apply IH; [exact Ht1|exact Hpre0|lia].
    + simpl. exists ((d, c0) :: pre), post. split; [exact Ht|exact Hpre].
Qed.

Lemma react_now e w t :
  react env e w = Some t -> now w <= now (last t w).
Proof.
  intro Hr. destruct e as [text| |o| |i r|dt]; unfold react in Hr.
  - injection Hr as <-. open_world w; cbn; lia.
  - destruct (submit_disabled (hooks w)); [discriminate|].
    injection Hr as <-. unfold handleSubmit.
    destruct (str_truthy (longUrl (hooks w))); open_world w; cbn; lia.
  - destruct (awaiting w); [discriminate|]. injection Hr as <-.
    destruct o; open_world w; cbn; lia.
  - destruct (copy_button (hooks w)); [|discriminate].
    injection Hr as <-. unfold onClick_copy.
    destruct (field "shortUrl" (shortUrl (hooks w)));
      open_world w; cbn; lia.
  - destruct (nth_error (writing w) i); [|discriminate].
    injection Hr as <-. destruct r; open_world w; cbn; lia.
  - injection Hr as <-.
    change ((advance dt ;; fire_due)%proc w)
      with ([final (advance dt) w] ++
            run_due (timers (final (advance dt) w)) (final (advance dt) w)).
    rewrite last_app_default.
    assert (Hack : only_ack
              (last (run_due (timers (final (advance dt) w))
                             (final (advance dt) w))
                    (last [final (advance dt) w] w))
              (final (advance dt) w))
      by (apply Forall_last; [apply run_due_only_ack|apply only_ack_refl]).
    destruct Hack as (_ & _ & _ & _ & _ & _ & _ & _ & _ & Hn).
    rewrite Hn. open_world w; cbn; lia.
Qed.

Lemma run_now evs w w' : run env evs w = Some w' -> now w <= now w'.
Proof.
  revert w; induction evs as [|e evs IH]; intros w Hr; simpl in Hr.
  - injection Hr as <-. lia.
  - destruct (step env e w) as [w1|] eqn:Hs; [|discriminate].
    apply step_react in Hs as (t & Ht & ->).
    pose proof (react_now _ _ _ Ht). pose proof (IH _ Hr). lia.
Qed.

Lemma react_keeps_armed due e w t :
  armed due w -> react env e w = Some t -> now (last t w) < due ->
  armed due (last t w).
Proof.
  intros (pre & post & Htm & Hpre) Hr Hnow.
  destruct e as [text| |o| |i r|dt]; unfold react in Hr.
  - injection Hr as <-. exists pre, post. open_world w; cbn in *; tauto.
  - destruct (submit_disabled (hooks w)); [discriminate|].
    injection Hr as <-. unfold handleSubmit. exists pre, post.
    destruct (str_truthy (longUrl (hooks w))); open_world w; cbn in *; tauto.
  - destruct (awaiting w); [discriminate|]. injection Hr as <-.
    exists pre, post. destruct o; open_world w; cbn in *; tauto.
  - destruct (copy_button (hooks w)); [|discriminate].
    injection Hr as <-. unfold onClick_copy. exists pre, post.
    destruct (field "shortUrl" (shortUrl (hooks w)));
      open_world w; cbn in *; tauto.
  - destruct (nth_error (writing w) i); [|discriminate].
    injection Hr as <-. destruct r.
    + destruct (enqueue_keeps_armed (now w + 2000) ClearCopySuccess
                  due pre post Hpre) as (pre' & post' & Heq & Hall).
      exists pre', post'. split; [|exact Hall].
      rewrite <- Heq, <- Htm. open_world w; reflexivity.
    + exists pre, post. open_world w; cbn in *; tauto.
  - injection Hr as <-.
    change ((advance dt ;; fire_due)%proc w)
      with ([final (advance dt) w] ++
            run_due (timers (final (advance dt) w)) (final (advance dt) w))
      in *.
    rewrite last_app_default in *.
    change (last [final (advance dt) w] w) with (final (advance dt) w) in *.
    apply run_due_keeps_armed with (pre := pre) (post := post).
    + rewrite <- Htm. open_world w; reflexivity.
    + exact Hpre.
    + assert (Hack : only_ack
                (last (run_due (timers (final (advance dt) w))
                               (final (advance dt) w))
                      (final (advance dt) w))
                (final (advance dt) w))
        by (apply Forall_last; [apply run_due_only_ack|apply only_ack_refl]).
      destruct Hack as (_ & _ & _ & _ & _ & _ & _ & _ & _ & Hn). lia.
Qed.

Lemma run_keeps_armed due evs w w' :
  armed due w -> run env evs w = Some w' -> now w' < due -> armed due w'.
Proof.
  revert w; induction evs as [|e evs IH]; intros w Ha Hr Hnow; simpl in Hr.
  - now injection Hr as <-.
  - destruct (step env e w) as [w1|] eqn:Hs; [|discriminate].
    apply step_react in Hs as (t & Ht & ->).
    apply (IH (last t w)); [|exact Hr|exact Hnow].
    apply (react_keeps_armed due e w t Ha Ht).
    pose proof (run_now _ _ _ Hr). lia.
Qed.

(** After a fulfilled clipboard write at time [now w] the acknowledgment is
    ["Copied!"], and the revert cannot be lost: whatever events [evs]
    follow before 2000 ms are over, the passing of time that reaches
    [now w + 2000] leaves the acknowledgment absent. *)
Theorem copied_ack_reverts w i text evs w' dt :
  nth_error (writing w) i = Some text ->
  exists w2,
    step env (WriteSettles i WriteOk) w = Some w2 /\
    copySuccess (hooks w2) = "Copied!" /\
    (run env evs w2 = Some w' ->
     now w' < now w + 2000 ->
     now w + 2000 <= now w' + dt ->
     exists w3,
       step env (Elapse dt) w' = Some w3 /\ copySuccess (hooks w3) = "").
Proof.
  intro Hnth. unfold step at 1, react. rewrite Hnth.
  eexists. split; [reflexivity|].
  set (w2 := last _ _).
  assert (H2 : copySuccess (hooks w2) = "Copied!" /\
               timers w2 = enqueue (now w + 2000) ClearCopySuccess (timers w))
    by (subst w2; open_world w; cbn in *; split; reflexivity).
  destruct H2 as (Hack & Htm). split; [exact Hack|].
  intros Hrun Hlt Hge.
  assert (Harm : armed (now w + 2000) w2).
  { destruct (enqueue_split (now w + 2000) ClearCopySuccess (timers w))
      as (pre & post & Hq & Hpre).
    exists pre, post. split; [congruence|exact Hpre]. }
  destruct (run_keeps_armed _ _ _ _ Harm Hrun Hlt)
    as (pre & post & Htm' & Hpre').
  destruct (elapse_reverts w' dt pre (now w + 2000) post Htm' Hpre' Hge)
    as (w3 & Hs & Hack3 & _).
  exists w3. split; assumption.
Qed.

End FormFacts.

(** *** The theorems at concrete runs *)

Section FormRuns.
Import UrlShortenerForm.

(** A run that ends in a failure: edit, submit, HTTP 500. *)
Lemma result_error_exclusive_witness :
  exists w,
    run None [Change "https://example.com"; Submit;
              PostSettles (axios_settle (HttpResponse 500 VNull))]
        (mount "") = Some w /\
    at_most_one_populated (hooks w).
Proof.
  eexists. split; [reflexivity|].
  refine (proj1 (result_error_exclusive None _ _)).
  exists "", [Change "https://example.com"; Submit;
              PostSettles (axios_settle (HttpResponse 500 VNull))].
  reflexivity.
Defined.

(** A submit right after the mount. *)
Lemma submit_empty_is_local_witness :
  submit_disabled (hooks (mount "")) = false /\
  longUrl (hooks (mount "")) = "" /\
  exists t,
    react None Submit (mount "") = Some t /\
    error (hooks (last t (mount ""))) = "Please enter a URL to shorten." /\
    requests (last t (mount "")) = [].
Proof.
  split; [reflexivity|]. split; [reflexivity|].
  destruct (submit_empty_is_local None (mount "") eq_refl eq_refl)
    as (t & Hr & _ & Herr & _).
  exists t. split; [exact Hr|]. split; [exact Herr|].
  cbn in Hr. injection Hr as <-. reflexivity.
Defined.

(** The example of the spec: ["https://example.com"] answered with
    [{ shortUrl: "https://s/abc" }]. *)
Lemma shorten_success_witness :
  exists w2,
    run None [Change "https://example.com"; Submit;
              PostSettles
                (axios_settle
                   (HttpResponse 200 (VObj [("shortUrl", VStr "https://s/abc")])))]
        (mount "") = Some w2 /\
    shortUrl (hooks w2) = VObj [("shortUrl", VStr "https://s/abc")] /\
    error (hooks w2) = "" /\
    loading (hooks w2) = false.
Proof.
  destruct (shorten_success None
              (final (onChange "https://example.com") (mount ""))
              200 (VObj [("shortUrl", VStr "https://s/abc")]))
    as (w1 & Hs & Hrest); [reflexivity|discriminate|reflexivity|].
  destruct (Hrest [] w1 eq_refl eq_refl) as (w2 & H2 & Hsu & Herr & Hld).
  exists w2. split; [|repeat split; assumption].
  cbn in Hs. injection Hs as <-. exact H2.
Defined.

(** The example of the spec: the endpoint returns HTTP 500. *)
Lemma shorten_failure_witness :
  exists w2,
    run None [Change "https://example.com"; Submit;
              PostSettles
                (axios_settle
                   (HttpResponse 500 (VObj [("error", VStr "Server error")])))]
        (mount "") = Some w2 /\
    error (hooks w2) =
      "Failed to shorten URL. Please check the link and try again." /\
    shortUrl (hooks w2) = VNull /\
    loading (hooks w2) = false.
Proof.
  destruct (shorten_failure None
              (final (onChange "https://example.com") (mount ""))
              (HttpResponse 500 (VObj [("error", VStr "Server error")])))
    as (w1 & Hs & Hrest); [reflexivity|discriminate| |].
  { right. exists 500, (VObj [("error", VStr "Server error")]).
    split; reflexivity. }
  destruct (Hrest [] w1 eq_refl eq_refl) as (w2 & H2 & Herr & Hsu & Hld).
  exists w2. split; [|repeat split; assumption].
  cbn in Hs. injection Hs as <-. exact H2.
Defined.

(** The submit of an edited input, as an event. *)
Lemma submission_keeps_input_witness :
  exists t,
    react None Submit (final (onChange "https://example.com") (mount ""))
      = Some t /\
    Forall (fun x => longUrl (hooks x) = "https://example.com") t.
Proof.
  eexists. split; [reflexivity|].
  refine (proj2 (proj2 (submission_keeps_input None
                          (final (onChange "https://example.com") (mount ""))
                          initial (Rejected (AxiosError None))))
                Submit _ eq_refl eq_refl).
Defined.

(** The copy of a shown result, its write fulfilled, and 2000 ms. *)
Lemma copy_round_trip_witness :
  exists w1 w2 w3,
    run None [Change "https://example.com"; Submit;
              PostSettles
                (axios_settle
                   (HttpResponse 200 (VObj [("shortUrl", VStr "https://s/abc")])));
              ClickCopy] (mount "") = Some w1 /\
    step None (WriteSettles 0 WriteOk) w1 = Some w2 /\
    clipboard w2 = "https://s/abc" /\
    copySuccess (hooks w2) = "Copied!" /\
    step None (Elapse 2000) w2 = Some w3 /\
    copySuccess (hooks w3) = "".
Proof.
  destruct (copy_round_trip None
              (mkWorld (mkState "https://example.com"
                          (VObj [("shortUrl", VStr "https://s/abc")]) false "" "")
                       [mkRequest "POST" "http://localhost:5000/api/shorten"
                          (VObj [("longUrl", VStr "https://example.com")])]
                       0 [] "" [] 0 [])
              [("shortUrl", VStr "https://s/abc")] "https://s/abc"
              eq_refl eq_refl)
    as (w1 & w2 & Hc & Hs & Hclip & Hack & _ & Hrev).
  destruct (Hrev 2000 (le_n 2000)) as (w3 & H3 & Hack3 & _).
  exists w1, w2, w3. repeat split; assumption.
Defined.

(** The failing input of C7: the write of the click above is rejected. *)
Lemma failed_copy_stays_witness :
  run None [Change "https://example.com"; Submit;
            PostSettles
              (axios_settle
                 (HttpResponse 200 (VObj [("shortUrl", VStr "https://s/abc")])));
            ClickCopy] (mount "") = Some copy_clicked /\
  exists w1,
    step None (WriteSettles 0 (WriteFails (DOMException "NotAllowedError")))
         copy_clicked = Some w1 /\
    copySuccess (hooks w1) = "Failed to copy!" /\
    forall dt,
      exists w2,
        step None (Elapse dt) w1 = Some w2 /\
        copySuccess (hooks w2) = "Failed to copy!".
Proof.
  split; [reflexivity|].
  destruct (failed_copy_stays None copy_clicked 0 (VStr "https://s/abc")
              (DOMException "NotAllowedError") eq_refl eq_refl)
    as (w1 & Hs & Hack & _ & Hstay).
  exists w1. repeat split; assumption.
Defined.

(** A second copy 1500 ms after the first one does not keep the revert of
    the first from running at 2000 ms. *)
Lemma copied_ack_reverts_witness :
  exists w2 w' w3,
    step None (WriteSettles 0 WriteOk) copy_clicked = Some w2 /\
    run None [Elapse 1500; ClickCopy; WriteSettles 0 WriteOk] w2 = Some w' /\
    copySuccess (hooks w') = "Copied!" /\
    step None (Elapse 500) w' = Some w3 /\
    copySuccess (hooks w3) = "".
Proof.
  destruct (copied_ack_reverts None copy_clicked 0 (VStr "https://s/abc")
              [Elapse 1500; ClickCopy; WriteSettles 0 WriteOk]
              (mkWorld (mkState "https://example.com"
                          (VObj [("shortUrl", VStr "https://s/abc")])
                          false "" "Copied!")
                       [mkRequest "POST" "http://localhost:5000/api/shorten"
                          (VObj [("longUrl", VStr "https://example.com")])]
                       0 [] "https://s/abc" [] 1500
                       [(2000, ClearCopySuccess); (3500, ClearCopySuccess)])
              500 eq_refl)
    as (w2 & Hs & _ & Hrev).
  cbn in Hs. injection Hs as <-.
  destruct (Hrev eq_refl) as (w3 & H3 & Hack3); [cbn; lia|cbn; lia|].
  eexists; eexists; exists w3.
  split; [reflexivity|]. split; [reflexivity|]. split; [reflexivity|].
  split; assumption.
Defined.

End FormRuns.

(** ** AdminPage *)

Section AdminFacts.
Import AdminPage.
Variable env : option string.
Implicit Types (w x : world) (e : event).

Ltac open_admin w := destruct w as [[? ? ?] ? ? ?].

Lemma admin_step_react e w w' :
  step e w = Some w' <-> exists t, react e w = Some t /\ w' = last t w.
Proof.
  unfold step. destruct (react e w) as [t|]; split.
  - intro H; injection H as <-. now exists t.
  - intros (t' & Ht & ->). now injection Ht as <-.
  - discriminate.
  - intros (t' & Ht & _). discriminate.
Qed.

Lemma mount_eq :
  mount env =
  mkWorld initial [mkRequest "GET" (API_URL env ++ "/api/urls")%string VUndefined]
          1 [].
Proof. reflexivity. Qed.

(** Claim C5.  When the listing request is answered with a 2xx status and a
    body that is not an array, the flow ends with the error
    ["Received an invalid format from the server."] (the spec quotes it
    without its full stop) and the loading flag cleared; [urls] is the
    empty array at every world on the way, and the render is the error
    paragraph, with no table and no record row. *)
Theorem non_array_body_is_format_error status payload :
  is_2xx status = true ->
  isArray payload = false ->
  exists t,
    react (GetSettles (axios_settle (HttpResponse status payload))) (mount env)
      = Some t /\
    Forall (fun x => urls (hooks x) = VArr []) t /\
    error (hooks (last t (mount env)))
      = ("Received an invalid format from the server" ++ ".")%string /\
    loading (hooks (last t (mount env))) = false /\
    render (hooks (last t (mount env)))
      = Rendered (ErrorP "Received an invalid format from the server.").
Proof.
  intros Hok Hshape. unfold axios_settle; rewrite Hok.
  rewrite mount_eq. unfold react, awaiting.
  eexists; split; [reflexivity|].
  unfold fetchUrls_resume, data. rewrite Hshape. cbn.
  repeat split. repeat (constructor; [reflexivity|]); constructor.
Qed.

Lemma map_rows_Forall2 items :
  Forall (fun u => u <> VNull /\ u <> VUndefined) items ->
  exists rows,
    map_rows items = Some rows /\
    Forall2 (fun u r => url_row u = Some r) items rows.
Proof.
  induction 1 as [|u items (Hn & Hu) _ (rows & Hrows & Hall)]; simpl.
  - exists []. split; [reflexivity|constructor].
  - assert (Hrow : exists r, url_row u = Some r)
      by (destruct u; try congruence; cbn; eauto).
    destruct Hrow as (r & Hr). rewrite Hr, Hrows.
    exists (r :: rows). split; [reflexivity|]. constructor; assumption.
Qed.

(** Claim C6.  When a pending listing request is answered with a 2xx status
    and the array [items], [urls] becomes exactly [items], whatever it was
    before.  The render is then the table: with the single empty-state row
    when [items] is empty; otherwise, the elements being records (no
    [null] among them), with one row per element, in the order of
    [items]. *)
Theorem listing_success w status items :
  awaiting w <> 0 ->
  error (hooks w) = "" ->
  is_2xx status = true ->
  exists w',
    step (GetSettles (axios_settle (HttpResponse status (VArr items)))) w
      = Some w' /\
    urls (hooks w') = VArr items /\
    error (hooks w') = "" /\
    loading (hooks w') = false /\
    (items = [] -> render (hooks w') = Rendered (Table [EmptyRow])) /\
    (items <> [] ->
     Forall (fun u => u <> VNull /\ u <> VUndefined) items ->
     exists rows,
       render (hooks w') = Rendered (Table rows) /\
       Forall2 (fun u r => url_row u = Some r) items rows).
Proof.
  intros Hp Herr Hok. unfold axios_settle; rewrite Hok.
  unfold step, react. destruct (awaiting w) as [|n] eqn:Ha; [congruence|].
  eexists; split; [reflexivity|].
  set (w' := last _ _).
  assert (H' : hooks w' = mkState (VArr items) false "")
    by (subst w'; open_admin w; cbn in *; subst; reflexivity).
  rewrite H'. cbn. repeat split.
  - intros ->. reflexivity.
  - intros Hne Hall. unfold tbody_of.
    destruct items as [|u items]; [congruence|].
    change (0 <? length (u :: items))%nat with true. cbv iota.
    destruct (map_rows_Forall2 _ Hall) as (rows & -> & HF).
    exists rows. split; [reflexivity|exact HF].
Qed.

Lemma array_inv_react e w t :
  isArray (urls (hooks w)) = true -> react e w = Some t ->
  Forall (fun x => isArray (urls (hooks x)) = true) t.
Proof.
  intros Hinv Hr. destruct e as [o]. unfold react in Hr.
  destruct (awaiting w); [discriminate|]. injection Hr as <-.
  destruct o as [res|err]; unfold fetchUrls_resume.
  - destruct (isArray (data res)) eqn:Hd; open_admin w; cbn in *;
      repeat (constructor; [cbn; assumption|]); constructor.
  - open_admin w; cbn in *;
      repeat (constructor; [cbn; assumption|]); constructor.
Qed.

Lemma array_inv_run evs w w' :
  isArray (urls (hooks w)) = true -> run evs w = Some w' ->
  isArray (urls (hooks w')) = true.
Proof.
  revert w; induction evs as [|e evs IH]; intros w Hinv Hr; simpl in Hr.
  - now injection Hr as <-.
  - destruct (step e w) as [w1|] eqn:Hs; [|discriminate].
    apply admin_step_react in Hs as (t & Ht & ->).
    apply (IH _ (Forall_last _ _ _ (array_inv_react _ _ _ Hinv Ht) Hinv) Hr).
Qed.

(** Claim C10.  In every reachable world of the listing page, and at every
    world an event takes it through from there, [urls] is an array and the
    render never asks [length] or [map] of anything else. *)
Theorem urls_always_an_array w :
  reachable env w ->
  (exists items, urls (hooks w) = VArr items) /\
  render (hooks w) <> NotAnArray /\
  forall e t,
    react e w = Some t ->
    Forall (fun x => exists items, urls (hooks x) = VArr items /\
                                   render (hooks x) <> NotAnArray) t.
Proof.
  assert (Harr : forall s, isArray (urls s) = true ->
                   (exists items, urls s = VArr items) /\
                   render s <> NotAnArray).
  { intros s Hs. unfold render.
    destruct (urls s) as [| | | | |items|]; try discriminate Hs.
    split; [eauto|].
    destruct (loading s); [discriminate|].
    destruct (str_truthy (error s)); [discriminate|].
    destruct (tbody_of items); discriminate. }
  intros (evs & Hrun).
  pose proof (array_inv_run _ _ _ (eq_refl : isArray (urls (hooks (mount env))) = true) Hrun)
    as Hinv.
  split; [apply Harr, Hinv|]. split; [apply Harr, Hinv|].
  intros e t Hr. eapply Forall_impl; [|exact (array_inv_react _ _ _ Hinv Hr)].
  intros x Hx. destruct (Harr _ Hx) as ((items & Hi) & Hren). eauto.
Qed.

End AdminFacts.

(** *** The theorems at concrete responses *)

Section AdminRuns.
Import AdminPage.

(** The example of the spec: the endpoint returns a JSON object. *)
Lemma non_array_body_is_format_error_witness :
  exists w,
    step (GetSettles
            (axios_settle (HttpResponse 200 (VObj [("urls", VArr [])]))))
         (mount None) = Some w /\
    error (hooks w) = "Received an invalid format from the server." /\
    urls (hooks w) = VArr [] /\
    render (hooks w)
      = Rendered (ErrorP "Received an invalid format from the server.").
Proof.
  destruct (non_array_body_is_format_error None 200
              (VObj [("urls", VArr [])]) eq_refl eq_refl)
    as (t & Hr & Hall & Herr & _ & Hren).
  exists (last t (mount None)). split; [|split; [exact Herr|split]].
  - unfold step. rewrite Hr. reflexivity.
  - apply Forall_last; [exact Hall|reflexivity].
  - exact Hren.
Defined.

(** Two records, and the rows in the order of the response. *)
Lemma listing_success_witness :
  exists w,
    step (GetSettles (axios_settle (HttpResponse 200 (VArr two_records))))
         (mount None) = Some w /\
    urls (hooks w) = VArr two_records /\
    render (hooks w)
      = Rendered (Table
          [UrlRow (VStr "b2") (VStr "https://example.com/b")
                  (VStr "https://s/b") (VNum "7");
           UrlRow (VStr "a1") (VStr "https://example.com/a")
                  (VStr "https://s/a") (VNum "0")]).
Proof.
  destruct (listing_success (mount None) 200 two_records)
    as (w & Hs & Hurls & _ & _ & _ & Hrows);
    [discriminate|reflexivity|reflexivity|].
  exists w. split; [exact Hs|]. split; [exact Hurls|].
  cbn in Hs. injection Hs as <-. reflexivity.
Defined.

(** The page after an answer that was not an array. *)
Lemma urls_always_an_array_witness :
  exists w,
    run [GetSettles (axios_settle (HttpResponse 200 (VStr "<html>")))]
        (mount None) = Some w /\
    exists items, urls (hooks w) = VArr items.
Proof.
  eexists. split; [reflexivity|].
  refine (proj1 (urls_always_an_array None _ _)).
  exists [GetSettles (axios_settle (HttpResponse 200 (VStr "<html>")))].
  reflexivity.
Defined.

End AdminRuns.

(** ** More of UrlShortenerForm *)

Section FormMore.
Import UrlShortenerForm.
Variable env : option string.
Implicit Types (w x : world) (e : event).

Ltac open_world w :=
  destruct w as [[? ? ? ? ?] ? ? ? ? ? ? ?].

(** At most one request of the form is in flight, and the in-flight flag is
    set exactly then.  While it is, the submit button is disabled and reads
    ["..."], neither the error paragraph nor the copy button is rendered,
    and neither a submit nor a copy can happen. *)
Theorem one_request_in_flight w :
  reachable env w ->
  awaiting w <= 1 /\
  (loading (hooks w) = true <-> awaiting w = 1) /\
  (awaiting w = 1 ->
   submit_disabled (hooks w) = true /\
   submit_label (hooks w) = "..." /\
   error_line (hooks w) = None /\
   copy_button (hooks w) = None /\
   react env Submit w = None /\
   react env ClickCopy w = None).
Proof.
  intros (clip & evs & Hrun).
  pose proof (flow_inv_run env _ _ _ (flow_inv_mount clip) Hrun) as Hinv.
  unfold flow_inv in Hinv.
  destruct (awaiting w) as [|[|n]] eqn:Ha; [| |contradiction].
  - destruct Hinv as (Hld & _). split; [lia|]. split; [|discriminate].
    rewrite Hld. split; [discriminate|discriminate].
  - destruct Hinv as (Hld & Hsu & Herr). split; [lia|].
    split; [tauto|]. intros _.
    unfold submit_disabled, submit_label, error_line, copy_button, react,
      submit_disabled, copy_button.
    rewrite Hld, Hsu, Herr. cbn. repeat split.
Qed.

Lemma react_requests e w t :
  react env e w = Some t ->
  requests (last t w) = requests w \/
  exists s, s <> "" /\ requests (last t w) = requests w ++ [shorten_request env s].
Proof.
  intro Hr. destruct (bystander e) eqn:Hb.
  - left.
    assert (Hs : same_flow (last t w) w)
      by (apply Forall_last;
          [exact (bystander_same_flow env _ _ _ Hb Hr)|apply same_flow_refl]).
    destruct Hs as (_ & _ & _ & Hq & _). exact Hq.
  - destruct e as [text| |o| |i r|dt]; try discriminate Hb;
      unfold react in Hr.
    + destruct (submit_disabled (hooks w)); [discriminate|].
      injection Hr as <-. unfold handleSubmit.
      destruct (longUrl (hooks w)) as [|c s] eqn:Hl.
      * left. open_world w; reflexivity.
      * right. exists (String c s). split; [discriminate|].
        open_world w; cbn in *. subst. reflexivity.
    + destruct (awaiting w); [discriminate|]. injection Hr as <-.
      left. destruct o; open_world w; reflexivity.
Qed.

(** Every request the form has issued is the POST of line 60 to
    [API_URL/api/shorten] whose body is [{ longUrl: s }] for a non-empty
    [s]: an empty input never reaches the network, and nothing else is ever
    requested. *)
Theorem requests_are_shorten_posts w :
  reachable env w ->
  Forall (fun q => exists s, s <> "" /\ q = shorten_request env s)
         (requests w).
Proof.
  intros (clip & evs & Hrun).
  assert (Hgen : forall w0,
             Forall (fun q => exists s, s <> "" /\ q = shorten_request env s)
                    (requests w0) ->
             run env evs w0 = Some w ->
             Forall (fun q => exists s, s <> "" /\ q = shorten_request env s)
                    (requests w)).
  { clear Hrun. induction evs as [|e evs IH]; intros w0 H0 Hr; simpl in Hr.
    - now injection Hr as <-.
    - destruct (step env e w0) as [w1|] eqn:Hs; [|discriminate].
      apply step_react in Hs as (t & Ht & ->).
      apply (IH (last t w0)); [|exact Hr].
      destruct (react_requests _ _ _ Ht) as [->|(s & Hs & ->)];
        [exact H0|].
      apply Forall_app. split; [exact H0|].
      constructor; [eauto|constructor]. }
  apply (Hgen (mount clip)); [constructor|exact Hrun].
Qed.



End FormMore.

Section FormTimers.
Import UrlShortenerForm.
Variable env : option string.
Implicit Types (w x : world) (e : event).

Ltac open_world w :=
  destruct w as [[? ? ? ? ?] ? ? ? ? ? ? ?].

Lemma enqueue_later t d cb q :
  t < d -> Forall (fun p => t < fst p) q ->
  Forall (fun p => t < fst p) (enqueue d cb q).
Proof.
  intros Hd Hq. induction Hq as [|[d0 c0] q H0 Hq IH]; simpl.
  - constructor; [exact Hd|constructor].
  - destruct (d0 <=? d)%nat.
    + constructor; [exact H0|exact IH].
    + constructor; [exact Hd|]. constructor; [exact H0|exact Hq].
Qed.

Lemma run_due_none q w :
  Forall (fun p => now w < fst p) q -> run_due q w = [].
Proof.
  intro Hq. destruct Hq as [|[d c] q Hd _]; [reflexivity|].
  rewrite run_due_cons. simpl in Hd.
  apply Nat.leb_gt in Hd. rewrite Hd. reflexivity.
Qed.

(** The acknowledgment of a fulfilled write does not revert early: when no
    timeout queued before is due within the next [dt] milliseconds, and
    [dt] is less than 2000, the acknowledgment is still ["Copied!"] after
    [dt] and no timeout has run. *)
Theorem copied_stays_until_due w i text dt :
  nth_error (writing w) i = Some text ->
  dt < 2000 ->
  Forall (fun p => now w + dt < fst p) (timers w) ->
  exists w2 w3,
    step env (WriteSettles i WriteOk) w = Some w2 /\
    step env (Elapse dt) w2 = Some w3 /\
    copySuccess (hooks w3) = "Copied!" /\
    timers w3 = timers w2.
Proof.
  intros Hnth Hdt Hlater.
  set (w2 := final (write_ends i text WriteOk ;; writeText_then WriteOk)%proc w).
  set (w3 := final (advance dt) w2).
  exists w2, w3.
  assert (Hs : step env (WriteSettles i WriteOk) w = Some w2)
    by (unfold step, react; rewrite Hnth; reflexivity).
  assert (H2 : copySuccess (hooks w2) = "Copied!" /\
               timers w2 = enqueue (now w + 2000) ClearCopySuccess (timers w) /\
               now w2 = now w)
    by (subst w2; open_world w; cbn; repeat split).
  destruct H2 as (Hack & Htm & Hnow).
  assert (H3 : copySuccess (hooks w3) = "Copied!" /\ timers w3 = timers w2 /\
               now w3 = now w + dt)
    by (subst w3; rewrite <- Hack, <- Hnow; destruct w2; cbn; repeat split).
  destruct H3 as (Hack3 & Htm3 & Hnow3).
  assert (Hnone : run_due (timers w3) w3 = []).
  { apply run_due_none. rewrite Htm3, Htm, Hnow3.
    apply enqueue_later; [lia|exact Hlater]. }
  split; [exact Hs|]. split; [|split; assumption].
  unfold step, react.
  change ((advance dt ;; fire_due)%proc w2) with (w3 :: run_due (timers w3) w3).
  rewrite Hnone. reflexivity.
Qed.

(** The console receives one entry for a request that failed (its cause,
    line 64) and one for a clipboard write that failed (line 76), and no
    event writes anything else to it. *)
Theorem console_logs_failures_only e w t :
  react env e w = Some t -> console (last t w) = console w ++ logged e.
Proof.
  intro Hr. destruct e as [text| |o| |i r|dt]; unfold react in Hr.
  - injection Hr as <-. open_world w; cbn. now rewrite app_nil_r.
  - destruct (submit_disabled (hooks w)); [discriminate|].
    injection Hr as <-. unfold handleSubmit.
    destruct (str_truthy (longUrl (hooks w))); open_world w; cbn;
      now rewrite app_nil_r.
  - destruct (awaiting w); [discriminate|]. injection Hr as <-.
    destruct o; open_world w; cbn; [now rewrite app_nil_r|reflexivity].
  - destruct (copy_button (hooks w)); [|discriminate].
    injection Hr as <-. unfold onClick_copy.
    destruct (field "shortUrl" (shortUrl (hooks w)));
      open_world w; cbn; now rewrite app_nil_r.
  - destruct (nth_error (writing w) i); [|discriminate].
    injection Hr as <-.
    destruct r; open_world w; cbn; [now rewrite app_nil_r|reflexivity].
  - injection Hr as <-.
    change ((advance dt ;; fire_due)%proc w)
      with ([final (advance dt) w] ++
            run_due (timers (final (advance dt) w)) (final (advance dt) w)).
    rewrite last_app_default.
    assert (Hack : only_ack
              (last (run_due (timers (final (advance dt) w))
                             (final (advance dt) w))
                    (last [final (advance dt) w] w))
              (final (advance dt) w))
      by (apply Forall_last; [apply run_due_only_ack|apply only_ack_refl]).
    destruct Hack as (_ & _ & _ & _ & _ & _ & Hco & _).
    rewrite Hco. open_world w; cbn. now rewrite app_nil_r.
Qed.

End FormTimers.

(** ** More of AdminPage *)

Section AdminMore.
Import AdminPage.
Variable env : option string.
Implicit Types (w x : world) (e : event).

Ltac open_admin w := destruct w as [[? ? ?] ? ? ?].

Lemma page_inv_react e w t :
  page_inv env w -> react e w = Some t -> page_inv env (last t w).
Proof.
  intros (Hq & Hst) Hr. destruct e as [o]. unfold react in Hr.
  destruct (awaiting w) as [|n] eqn:Ha; [discriminate|].
  injection Hr as <-.
  destruct Hst as [(Hn & Hinit)|(Hn & _)]; [|discriminate].
  injection Hn as ->. unfold page_inv.
  destruct o as [res|err]; unfold fetchUrls_resume.
  - destruct (isArray (data res)); open_admin w; cbn in *;
      injection Hinit as -> -> ->; subst; split; try reflexivity;
      right; repeat split; tauto.
  - open_admin w; cbn in *; injection Hinit as -> -> ->; subst;
      split; try reflexivity; right; repeat split; tauto.
Qed.

Lemma page_inv_reachable w : reachable env w -> page_inv env w.
Proof.
  intros (evs & Hrun).
  assert (Hgen : forall w0, page_inv env w0 -> run evs w0 = Some w ->
                            page_inv env w).
  { clear Hrun. induction evs as [|e evs IH]; intros w0 H0 Hr; simpl in Hr.
    - now injection Hr as <-.
    - destruct (step e w0) as [w1|] eqn:Hs; [|discriminate].
      apply admin_step_react in Hs as (t & Ht & ->).
      exact (IH _ (page_inv_react _ _ _ H0 Ht) Hr). }
  apply (Hgen (mount env)); [|exact Hrun].
  split; [reflexivity|]. left. split; reflexivity.
Qed.

(** When the listing request fails, by a network error or by a status
    outside 200..299, the page ends with the error
    ["Failed to fetch URL list."] (line 148) whatever the body of the
    answer was, the list still empty, the loading flag cleared, the error
    paragraph rendered and the cause on the console. *)
Theorem fetch_failure_is_fetch_error reply :
  (reply = NetworkError \/
   exists status payload,
     reply = HttpResponse status payload /\ is_2xx status = false) ->
  exists w' err,
    axios_settle reply = Rejected err /\
    step (GetSettles (axios_settle reply)) (mount env) = Some w' /\
    error (hooks w') = "Failed to fetch URL list." /\
    urls (hooks w') = VArr [] /\
    loading (hooks w') = false /\
    render (hooks w') = Rendered (ErrorP "Failed to fetch URL list.") /\
    console w' = [[ArgExn err]].
Proof.
  intro Hfail.
  assert (Hrej : exists err, axios_settle reply = Rejected err).
  { destruct Hfail as [->|(status & payload & -> & Hbad)]; cbn.
    - eauto.
    - rewrite Hbad; eauto. }
  destruct Hrej as (err & Hrej). rewrite Hrej.
  eexists; exists err. split; [reflexivity|]. split; [reflexivity|].
  cbn. repeat split.
Qed.

(** A mounted listing page has issued exactly one request, the GET of line
    139, in every reachable world; at most one answer is awaited, and once
    it has come no further event of the page exists: there is no retry and
    no polling. *)
Theorem one_request_per_visit w :
  reachable env w ->
  requests w = [listing_request env] /\
  awaiting w <= 1 /\
  (awaiting w = 0 -> forall e, react e w = None).
Proof.
  intro Hreach. destruct (page_inv_reachable _ Hreach) as (Hq & Hst).
  split; [exact Hq|]. split.
  - destruct Hst as [(-> & _)|(-> & _)]; lia.
  - intros Ha [o]. unfold react. rewrite Ha. reflexivity.
Qed.

(** The listing page renders the loading paragraph exactly while its
    request is pending: [finally] (line 151) clears the flag on every
    outcome. *)
Theorem loading_shown_while_pending w :
  reachable env w ->
  (render (hooks w) = Rendered LoadingP <-> awaiting w = 1).
Proof.
  intro Hreach. destruct (page_inv_reachable _ Hreach) as (_ & Hst).
  destruct Hst as [(Ha & Hinit)|(Ha & Hld & _)]; rewrite Ha.
  - rewrite Hinit. split; reflexivity.
  - split; [|discriminate]. unfold render. rewrite Hld.
    destruct (str_truthy (error (hooks w))); [discriminate|].
    destruct (urls (hooks w)); try discriminate.
    destruct (tbody_of items); discriminate.
Qed.

(** On the listing page a non-empty list and an error never coexist: after
    a failure of either kind the list is the empty array it was
    initialized to. *)
Theorem list_or_error_not_both w :
  reachable env w ->
  urls (hooks w) = VArr [] \/ error (hooks w) = "".
Proof.
  intro Hreach. destruct (page_inv_reachable _ Hreach) as (_ & Hst).
  destruct Hst as [(_ & ->)|(_ & _ & H)]; [left; reflexivity|exact H].
Qed.

Lemma map_rows_nullish items :
  existsb nullish items = true -> map_rows items = None.
Proof.
  induction items as [|u items IH]; [discriminate|]. simpl.
  intro H. apply orb_prop in H as [Hu|Hrest].
  - destruct u; try discriminate Hu; reflexivity.
  - rewrite (IH Hrest). destruct (url_row u); reflexivity.
Qed.

(** An array with a [null] (or [undefined]) element passes the array check
    of line 141 and is stored; the render then throws, at the read of
    [url._id] on that element (line 176). *)
Theorem null_element_makes_render_throw status items :
  is_2xx status = true ->
  existsb nullish items = true ->
  exists w',
    step (GetSettles (axios_settle (HttpResponse status (VArr items))))
         (mount env) = Some w' /\
    urls (hooks w') = VArr items /\
    error (hooks w') = "" /\
    render (hooks w') = Throws.
Proof.
  intros Hok Hnull. unfold axios_settle; rewrite Hok.
  eexists. split; [reflexivity|]. cbn. repeat split.
  unfold tbody_of. destruct items as [|u items]; [discriminate|].
  change (0 <? length (u :: items))%nat with true. cbv iota.
  rewrite (map_rows_nullish _ Hnull). reflexivity.
Qed.

End AdminMore.

(** *** These properties at concrete runs *)

Section MoreRuns.
Import UrlShortenerForm.

(** A submitted input, the answer still to come. *)
Lemma one_request_in_flight_witness :
  exists w,
    run None [Change "https://example.com"; Submit] (mount "") = Some w /\
    awaiting w = 1 /\
    react None Submit w = None.
Proof.
  eexists. split; [reflexivity|].
  match goal with
  | |- awaiting ?w = 1 /\ _ =>
      destruct (one_request_in_flight None w) as (_ & _ & H);
        [exists "", [Change "https://example.com"; Submit]; reflexivity|]
  end.
  split; [reflexivity|].
  destruct (H eq_refl) as (_ & _ & _ & _ & Hs & _). exact Hs.
Defined.

(** An empty submit, then a failed and a successful one. *)
Lemma requests_are_shorten_posts_witness :
  exists w,
    run None [Submit;
              Change "https://a.example"; Submit;
              PostSettles (axios_settle NetworkError);
              Change "https://b.example"; Submit;
              PostSettles (axios_settle (HttpResponse 200 VNull))]
        (mount "") = Some w /\
    length (requests w) = 2 /\
    Forall (fun q => exists s, s <> "" /\ q = shorten_request None s)
           (requests w).
Proof.
  eexists. split; [cbv; reflexivity|]. split; [reflexivity|].
  apply (requests_are_shorten_posts None).
  exists "", [Submit;
              Change "https://a.example"; Submit;
              PostSettles (axios_settle NetworkError);
              Change "https://b.example"; Submit;
              PostSettles (axios_settle (HttpResponse 200 VNull))].
  cbv. reflexivity.
Defined.



(** One millisecond before the revert. *)
Lemma copied_stays_until_due_witness :
  exists w2 w3,
    step None (WriteSettles 0 WriteOk) copy_clicked = Some w2 /\
    step None (Elapse 1999) w2 = Some w3 /\
    copySuccess (hooks w3) = "Copied!".
Proof.
  destruct (copied_stays_until_due None copy_clicked 0
              (VStr "https://s/abc") 1999 eq_refl)
    as (w2 & w3 & Hs & H3 & Hack & _);
    [cbn; lia|constructor|].
  exists w2, w3. repeat split; assumption.
Defined.

(** A request that ends in HTTP 500. *)
Lemma console_logs_failures_only_witness :
  exists w t,
    run None [Change "https://example.com"; Submit] (mount "") = Some w /\
    react None (PostSettles (axios_settle (HttpResponse 500 VNull))) w
      = Some t /\
    console (last t w) = [[ArgExn (AxiosError (Some 500))]].
Proof.
  eexists; eexists. split; [cbv; reflexivity|]. split; [cbv; reflexivity|].
  match goal with
  | |- console (last ?t ?w) = _ =>
      exact (console_logs_failures_only None
               (PostSettles (axios_settle (HttpResponse 500 VNull)))
               w t eq_refl)
  end.
Defined.

End MoreRuns.

Section MoreAdminRuns.
Import AdminPage.

(** HTTP 500 with a JSON object as its body. *)
Lemma fetch_failure_is_fetch_error_witness :
  exists w',
    step (GetSettles
            (axios_settle
               (HttpResponse 500 (VObj [("error", VStr "Server error")]))))
         (mount None) = Some w' /\
    error (hooks w') = "Failed to fetch URL list." /\
    urls (hooks w') = VArr [].
Proof.
  destruct (fetch_failure_is_fetch_error None
              (HttpResponse 500 (VObj [("error", VStr "Server error")])))
    as (w' & err & _ & Hs & Herr & Hurls & _).
  { right. exists 500, (VObj [("error", VStr "Server error")]).
    split; reflexivity. }
  exists w'. repeat split; assumption.
Defined.

(** The page after its answer. *)
Lemma one_request_per_visit_witness :
  exists w,
    run [GetSettles (axios_settle (HttpResponse 200 (VArr two_records)))]
        (mount None) = Some w /\
    requests w = [listing_request None] /\
    forall e, react e w = None.
Proof.
  eexists. split; [reflexivity|].
  match goal with
  | |- requests ?w = _ /\ _ =>
      destruct (one_request_per_visit None w) as (Hq & _ & Hnone);
        [exists [GetSettles
                   (axios_settle (HttpResponse 200 (VArr two_records)))];
         reflexivity|]
  end.
  split; [exact Hq|exact (Hnone eq_refl)].
Defined.

(** The page right after the mount. *)
Lemma loading_shown_while_pending_witness :
  reachable None (mount None) /\
  (render (hooks (mount None)) = Rendered LoadingP <->
   awaiting (mount None) = 1).
Proof.
  assert (H : reachable None (mount None)) by (exists []; reflexivity).
  split; [exact H|exact (loading_shown_while_pending None _ H)].
Defined.

(** The page after an HTTP 404. *)
Lemma list_or_error_not_both_witness :
  exists w,
    run [GetSettles (axios_settle (HttpResponse 404 (VArr two_records)))]
        (mount None) = Some w /\
    (urls (hooks w) = VArr [] \/ error (hooks w) = "").
Proof.
  eexists. split; [reflexivity|].
  apply (list_or_error_not_both None).
  exists [GetSettles (axios_settle (HttpResponse 404 (VArr two_records)))].
  reflexivity.
Defined.

(** The answer [[null]]. *)
Lemma null_element_makes_render_throw_witness :
  exists w',
    step (GetSettles (axios_settle (HttpResponse 200 (VArr [VNull]))))
         (mount None) = Some w' /\
    render (hooks w') = Throws.
Proof.
  destruct (null_element_makes_render_throw None 200 [VNull]
              eq_refl eq_refl)
    as (w' & Hs & _ & _ & Hren).
  exists w'. split; assumption.
Defined.

End MoreAdminRuns.
